(** * PayWhirl API client (paywhirl.py): a shallow embedding and its properties

    The file follows [paywhirl.py] top to bottom.

    - [Py] holds the few Python values the client handles: the parameter
      mappings are dicts, kept as association lists because a dict keeps
      its insertion order and that order is the order of the JSON body.
    - [Requests] is the part of the [requests] library the client calls:
      [requests.get], [requests.post], [Response.raise_for_status],
      [Response.json] and the exceptions they raise.  The network and the
      JSON decoder are variables of a section.
    - The class [PayWhirl] is a record with its four attributes; a method is
      a computation in a monad that threads the client object and the
      network, may raise, and records every request handed to [requests].

    Arguments have the types the annotations of the source give them: [int]
    is [Z], [str] is [string], [bool] is [bool], [dict] is [Py.dict] and
    [Any] is [Py.value].  An argument whose default is [None] is an option
    (or, for [Any], the value [PyNone]): leaving it out and passing [None]
    are the same call.  An argument with another default is an option that
    [arg_or] resolves, [None] standing for the argument left out. *)

From Stdlib Require Import ZArith String Ascii List Bool Lia DecimalString.
From Stdlib Require Import NArith DecimalPos DecimalZ.
Import ListNotations.
Local Open Scope list_scope.
Local Open Scope string_scope.
Set Warnings "-register-all".

(** ** Python values *)

Module Py.

Inductive value : Type :=
| PyNone
| PyBool (b : bool)
| PyInt (z : Z)
| PyStr (s : string)
| PyList (l : list value)
| PyDict (d : list (string * value)).

(** A dict, in insertion order. *)
Definition dict : Type := list (string * value).

(** [bool(v)]: what [v or w] and [if v] test. *)
Definition truthy (v : value) : bool :=
  match v with
  | PyNone => false
  | PyBool b => b
  | PyInt z => negb (Z.eqb z 0)
  | PyStr s => negb (String.eqb s "")
  | PyList l => match l with [] => false | _ :: _ => true end
  | PyDict d => match d with [] => false | _ :: _ => true end
  end.

(** [a or b] *)
Definition py_or (a b : value) : value := if truthy a then a else b.

(** [d[k] = v]: the value of an existing key is replaced in place, a new
    key goes to the end. *)
Fixpoint dict_set (d : dict) (k : string) (v : value) : dict :=
  match d with
  | [] => [(k, v)]
  | (k', v') :: rest =>
      if String.eqb k' k then (k', v) :: rest else (k', v') :: dict_set rest k v
  end.

(** [dict([...])] and the literal [{k: v, ...}] *)
Definition dict_of (items : list (string * value)) : dict :=
  fold_left (fun d kv => dict_set d (fst kv) (snd kv)) items [].

(** [d.get(k)] *)
Fixpoint dict_get (d : dict) (k : string) : option value :=
  match d with
  | [] => None
  | (k', v) :: rest => if String.eqb k' k then Some v else dict_get rest k
  end.

(** [list(d.keys())] *)
Definition keys (d : dict) : list string := map fst d.

(** [str(n)] for an int: decimal digits, with a minus sign when negative. *)
Definition str_of_int (n : Z) : string := NilZero.string_of_int (Z.to_int n).

(** [str.format(template, arg)] for the templates of the client, whose only
    replacement field is [{0}]. *)
Fixpoint str_format (template : string) (arg : string) : string :=
  match template with
  | EmptyString => EmptyString
  | String c1 r1 =>
      match r1 with
      | String c2 (String c3 r3) =>
          if Ascii.eqb c1 "{" && Ascii.eqb c2 "0" && Ascii.eqb c3 "}"
          then arg ++ str_format r3 arg
          else String c1 (str_format r1 arg)
      | _ => String c1 (str_format r1 arg)
      end
  end.


(** The characters [str(n)] is made of. *)
Definition int_char (c : ascii) : bool :=
  Ascii.eqb c "-" || ((48 <=? nat_of_ascii c)%nat && (nat_of_ascii c <=? 57)%nat).

(** No character of [s] could start or continue a decimal number. *)
Fixpoint no_int_char (s : string) : bool :=
  match s with
  | EmptyString => true
  | String c rest => negb (int_char c) && no_int_char rest
  end.

(** Every character of [s] is a digit or a minus sign. *)
Fixpoint all_int_char (s : string) : bool :=
  match s with
  | EmptyString => true
  | String c rest => int_char c && all_int_char rest
  end.

(** The value an omitted argument takes. *)
Definition arg_or {A : Type} (default : A) (supplied : option A) : A :=
  match supplied with
  | Some a => a
  | None => default
  end.

End Py.
Import Py.

(** ** The [requests] library, as the client uses it *)

Module Requests.

Inductive verb : Type := GET | POST.

(** One call of [requests.get] or [requests.post] with its keyword
    arguments; a keyword that the call does not pass is [None].
    [requests] sends [params] as the query string of the URL and [json] as
    a JSON request body. *)
Record Request : Type := mkRequest {
  method : verb;
  url : string;
  params : option value;
  json : option value;
  headers : list (string * string);
  verify : bool
}.

Record Response : Type := mkResponse {
  status_code : Z;
  text : string
}.

(** The mapping a request carries, under whichever keyword. *)
Definition mapping_of (req : Request) : option value :=
  match params req with
  | Some p => Some p
  | None => json req
  end.

Definition wire_keys (req : Request) : list string :=
  match mapping_of req with
  | Some (PyDict d) => keys d
  | _ => []
  end.

Definition wire_value (req : Request) (k : string) : option value :=
  match mapping_of req with
  | Some (PyDict d) => dict_get d k
  | _ => None
  end.

(** [HTTPError] keeps the response ([e.response.status_code],
    [e.response.text]); [ConnectionError] stands for a call that got no
    response; [JSONDecodeError] is what [Response.json] raises on a body
    that is not JSON. *)
Inductive exn : Type :=
| HTTPError (response : Response)
| ConnectionError (msg : string)
| JSONDecodeError (doc : string).

Inductive result (A : Type) : Type :=
| Ok (a : A)
| Raise (e : exn).
Arguments Ok {A} a.
Arguments Raise {A} e.

(** Modelled from the spec: [Response.raise_for_status] belongs to the
    [requests] library and is not part of the repository.  The spec gives
    its contract: a 4xx or 5xx status fails with an HTTP error that carries
    the status code and the raw body; any other status passes. *)
Definition is_http_failure (status : Z) : bool :=
  (400 <=? status)%Z && (status <? 600)%Z.

Definition raise_for_status (resp : Response) : result unit :=
  if is_http_failure (status_code resp) then Raise (HTTPError resp) else Ok tt.

End Requests.
Import Requests.

(** ** The client *)

(** [class PayWhirl]: the four attributes. *)
Record PayWhirl : Type := mkPayWhirl {
  _api_key : string;
  _api_secret : string;
  _api_base : string;
  _verify_ssl : bool
}.

(** [PayWhirl.__init__] *)
Definition __init__ (api_key api_secret : string) (api_base : option string)
  : PayWhirl :=
  let api_base := arg_or "https://api.paywhirl.com" api_base in
  {| _api_key := api_key;
     _api_secret := api_secret;
     _api_base := api_base;
     _verify_ssl := true |}.

(** A call of a public method with its arguments: what a caller of the
    class can ask for. *)
Inductive Call : Type :=
| call_get_customers (data : dict)
| call_get_customer (customer_id : Z)
| call_get_addresses (customer_id : Z)
| call_get_address (address_id : Z)
| call_get_profile (customer_id : Z)
| call_auth_customer (email password : string)
| call_create_customer (data : dict)
| call_update_customer (data : dict)
| call_delete_customer (customer_id : Z) (forget : option Z)
| call_get_questions (return_list_size : option Z)
| call_update_answer (data : dict)
| call_get_answers (customer_id : Z)
| call_get_plans (data : dict)
| call_get_plan (plan_id : Z)
| call_create_plan (data : dict)
| call_update_plan (data : dict)
| call_get_subscriptions (customer_id : Z)
| call_get_subscription (subscription_id : Z)
| call_subscribe_customer (data : dict)
| call_update_subscription (subscription_id plan_id : Z)
    (quantity address_id installments_left trial_end card_id : option Z)
| call_unsubscribe_customer (subscription_id : Z)
| call_get_subscribers (data : dict)
| call_get_invoice (invoice_id : Z)
| call_get_invoices (customer_id : Z) (all_invoices : option bool)
| call_process_invoice (invoice_id : Z) (data : dict)
| call_mark_invoice_as_paid (invoice_id : Z)
| call_add_promo_code_to_invoice (invoice_id : Z) (promo_code : string)
| call_remove_promo_code_from_invoice (invoice_id : Z)
| call_update_invoice_card (invoice_id card_id : Z)
| call_update_invoice_items (invoice_id : Z) (line_items : dict)
| call_create_invoice (data : dict)
| call_delete_invoice (invoice_id : Z)
| call_get_gateways
| call_get_gateway (gateway_id : Z)
| call_create_charge (data : dict)
| call_get_charge (charge_id : Z)
| call_refund_charge (charge_id : Z) (data : dict)
| call_get_cards (customer_id : Z)
| call_get_card (card_id : Z)
| call_create_card (data : dict)
| call_delete_card (card_id : Z)
| call_get_promos
| call_get_promo (promo_id : Z)
| call_create_promo (data : dict)
| call_delete_promo (promo_id : Z)
| call_get_email_template (template_id : Z)
| call_send_email (data : dict)
| call_get_account
| call_get_stats
| call_get_shipping_rules
| call_get_shipping_rule (shipping_rule_id : Z)
| call_get_tax_rules
| call_get_tax_rule (rule_id : Z)
| call_get_multi_auth_token (data : dict).

(** ** What the specification says of the calls *)

(** The decimal numeral of an integer, as one writes it by hand: the last
    digit is the remainder by ten, the digits before it are those of the
    quotient, and a negative number has a minus sign in front.  This is what
    [{id}] stands for in a path. *)
Definition digit (k : N) : ascii := ascii_of_N (48 + k).

(** The digits of [n], most significant first, in front of [acc]. *)
Fixpoint digits_of (fuel : nat) (n : N) (acc : string) : string :=
  match fuel with
  | O => acc
  | S fuel =>
      let acc := String (digit (n mod 10)) acc in
      if (n <? 10)%N then acc else digits_of fuel (n / 10) acc
  end.

(** A number has no more decimal digits than binary ones. *)
Definition digits (n : N) : string := digits_of (S (N.size_nat n)) n "".

Definition decimal (n : Z) : string :=
  if (n <? 0)%Z then String "-" (digits (Z.abs_N n)) else digits (Z.abs_N n).

(** For the proofs: the same digits as a [Decimal.uint], least significant
    first. *)
Definition digit_cons (k : N) (rest : Decimal.uint) : Decimal.uint :=
  match k with
  | 0 => Decimal.D0 rest | 1 => Decimal.D1 rest | 2 => Decimal.D2 rest
  | 3 => Decimal.D3 rest | 4 => Decimal.D4 rest | 5 => Decimal.D5 rest
  | 6 => Decimal.D6 rest | 7 => Decimal.D7 rest | 8 => Decimal.D8 rest
  | _ => Decimal.D9 rest
  end%N.

Fixpoint little_endian (fuel : nat) (n : N) : Decimal.uint :=
  match fuel with
  | O => Decimal.Nil
  | S fuel =>
      digit_cons (n mod 10)
        (if (n <? 10)%N then Decimal.Nil else little_endian fuel (n / 10))
  end.

(** The endpoint table of the specification (section 6), [{id}] standing for
    the decimal identifier of the call. *)
Definition endpoint_table (c : Call) : option (verb * string) :=
  match c with
  | call_get_customers _ => Some (GET, "/customers")
  | call_get_customer id => Some (GET, "/customer/" ++ decimal id)
  | call_create_customer _ => Some (POST, "/create/customer")
  | call_update_customer _ => Some (POST, "/update/customer")
  | call_delete_customer _ _ => Some (POST, "/delete/customer")
  | call_subscribe_customer _ => Some (POST, "/subscribe/customer")
  | call_process_invoice id _ =>
      Some (POST, "/invoice/" ++ decimal id ++ "/process")
  | call_mark_invoice_as_paid id =>
      Some (POST, "/invoice/" ++ decimal id ++ "/mark-as-paid")
  | call_add_promo_code_to_invoice id _ =>
      Some (POST, "/invoice/" ++ decimal id ++ "/add-promo")
  | call_remove_promo_code_from_invoice id =>
      Some (POST, "/invoice/" ++ decimal id ++ "/remove-promo")
  | call_update_invoice_card id _ =>
      Some (POST, "/invoice/" ++ decimal id ++ "/card")
  | call_update_invoice_items id _ =>
      Some (POST, "/invoice/" ++ decimal id ++ "/items")
  | call_refund_charge id _ =>
      Some (POST, "/refund/charge/" ++ decimal id)
  | call_get_multi_auth_token _ => Some (POST, "/multiauth")
  | call_send_email _ => Some (POST, "/send-email")
  | call_get_account => Some (GET, "/account")
  | call_get_stats => Some (GET, "/stats")
  | _ => None
  end.

(** The templated get-by-id calls: the resource part of the path and the
    identifier that follows it. *)
Definition by_id (c : Call) : option (string * Z) :=
  match c with
  | call_get_customer id => Some ("/customer/", id)
  | call_get_addresses id => Some ("/customer/addresses/", id)
  | call_get_address id => Some ("/customer/address/", id)
  | call_get_profile id => Some ("/customer/profile/", id)
  | call_get_plan id => Some ("/plan/", id)
  | call_get_subscriptions id => Some ("/subscriptions/", id)
  | call_get_subscription id => Some ("/subscription/", id)
  | call_get_invoice id => Some ("/invoice/", id)
  | call_get_invoices id _ => Some ("/invoices/", id)
  | call_get_gateway id => Some ("/gateway/", id)
  | call_get_charge id => Some ("/charge/", id)
  | call_get_cards id => Some ("/cards/", id)
  | call_get_card id => Some ("/card/", id)
  | call_get_promo id => Some ("/promo/", id)
  | call_get_email_template id => Some ("/email/", id)
  | call_get_shipping_rule id => Some ("/shipping/", id)
  | call_get_tax_rule id => Some ("/tax/", id)
  | _ => None
  end.


(** The key of an optional argument, when the caller gave it a value. *)
Definition given {A : Type} (k : string) (x : option A) : list string :=
  match x with
  | Some _ => [k]
  | None => []
  end.





(** The claim that a request carries [k = v] in its mapping. *)
Definition carries (k : string) (v : value) (req : Request) : Prop :=
  wire_value req k = Some v.

(** ** Further readings of the calls *)

(** The mapping the caller hands over, for the methods that take one. *)
Definition forwarded (c : Call) : option dict :=
  match c with
  | call_get_customers data | call_create_customer data
  | call_update_customer data | call_update_answer data
  | call_get_plans data | call_create_plan data | call_update_plan data
  | call_subscribe_customer data | call_get_subscribers data
  | call_process_invoice _ data | call_update_invoice_items _ data
  | call_create_invoice data | call_create_charge data
  | call_refund_charge _ data | call_create_card data
  | call_create_promo data | call_send_email data
  | call_get_multi_auth_token data => Some data
  | _ => None
  end.

(** An optional int as an item of a body: there when given. *)
Definition item_if_given (k : string) (x : option Z) : list (string * value) :=
  match x with
  | Some x => [(k, PyInt x)]
  | None => []
  end.

(** Verb and path of the endpoints that [endpoint_table] leaves out, as the
    methods of the source have them. *)
Definition other_endpoints (c : Call) : option (verb * string) :=
  match c with
  | call_get_addresses id =>
      Some (GET, "/customer/addresses/" ++ decimal id)
  | call_get_address id => Some (GET, "/customer/address/" ++ decimal id)
  | call_get_profile id => Some (GET, "/customer/profile/" ++ decimal id)
  | call_auth_customer _ _ => Some (POST, "/auth/customer")
  | call_get_questions _ => Some (GET, "/questions")
  | call_update_answer _ => Some (POST, "/update/answer")
  | call_get_answers _ => Some (GET, "/answers")
  | call_get_plans _ => Some (GET, "/plans")
  | call_get_plan id => Some (GET, "/plan/" ++ decimal id)
  | call_create_plan _ => Some (POST, "/create/plan")
  | call_update_plan _ => Some (POST, "/update/plan")
  | call_get_subscriptions id => Some (GET, "/subscriptions/" ++ decimal id)
  | call_get_subscription id => Some (GET, "/subscription/" ++ decimal id)
  | call_update_subscription _ _ _ _ _ _ _ =>
      Some (POST, "/update/subscription")
  | call_unsubscribe_customer _ => Some (POST, "/unsubscribe/customer")
  | call_get_subscribers _ => Some (GET, "/subscribers")
  | call_get_invoice id => Some (GET, "/invoice/" ++ decimal id)
  | call_get_invoices id _ => Some (GET, "/invoices/" ++ decimal id)
  | call_create_invoice _ => Some (POST, "/invoices")
  | call_delete_invoice _ => Some (POST, "/delete/invoice")
  | call_get_gateways => Some (GET, "/gateways")
  | call_get_gateway id => Some (GET, "/gateway/" ++ decimal id)
  | call_create_charge _ => Some (POST, "/create/charge")
  | call_get_charge id => Some (GET, "/charge/" ++ decimal id)
  | call_get_cards id => Some (GET, "/cards/" ++ decimal id)
  | call_get_card id => Some (GET, "/card/" ++ decimal id)
  | call_create_card _ => Some (POST, "/create/card")
  | call_delete_card _ => Some (POST, "/delete/card")
  | call_get_promos => Some (GET, "/promo")
  | call_get_promo id => Some (GET, "/promo/" ++ decimal id)
  | call_create_promo _ => Some (POST, "/create/promo")
  | call_delete_promo _ => Some (POST, "/delete/promo")
  | call_get_email_template id => Some (GET, "/email/" ++ decimal id)
  | call_get_shipping_rules => Some (GET, "/shipping/")
  | call_get_shipping_rule id => Some (GET, "/shipping/" ++ decimal id)
  | call_get_tax_rules => Some (GET, "/tax")
  | call_get_tax_rule id => Some (GET, "/tax/" ++ decimal id)
  | _ => None
  end.

(** ** A small network and decoder to run the client on *)

(** A network that gives every request the same response. *)
Definition constant_net (resp : Response)
  : Request -> unit -> result Response * unit :=
  fun _ n => (Ok resp, n).

(** A decoder that knows two documents. *)
Definition tiny_json (doc : string) : option value :=
  if String.eqb doc "{}" then Some (PyDict [])
  else if String.eqb doc "[]" then Some (PyList [])
  else None.

Definition ok_200 : Response := mkResponse 200 "{}".
Definition unauthorized_401 : Response := mkResponse 401 "Unauthorized".

Definition demo_client : PayWhirl := __init__ "pwpk_x" "pwpsk_x" None.

(** A network that answers nothing: [requests] raises. *)
Definition failing_net (e : exn) : Request -> unit -> result Response * unit :=
  fun _ n => (Raise e, n).

Definition no_content_204 : Response := mkResponse 204 "".

Section Client.

(** The network: a request gets a response or no response at all, and the
    state of the network may change. *)
Variable Net : Type.
Variable transport : Request -> Net -> result Response * Net.

(** The JSON decoder behind [Response.json]. *)
Variable json_loads : string -> option value.

(** What a method runs in: the client object and the network. *)
Record World : Type := mkWorld {
  self : PayWhirl;
  net : Net
}.

(** A run ends with a value or an exception, a world, and the requests it
    handed to [requests], oldest first. *)
Record Run (A : Type) : Type := mkRun {
  outcome : result A;
  final : World;
  sent : list Request
}.
Arguments mkRun {A} _ _ _.
Arguments outcome {A} _.
Arguments final {A} _.
Arguments sent {A} _.

Definition M (A : Type) : Type := World -> Run A.

Definition ret {A : Type} (a : A) : M A :=
  fun w => mkRun (Ok a) w [].

Definition raise {A : Type} (e : exn) : M A :=
  fun w => mkRun (Raise e) w [].

Definition bind {A B : Type} (m : M A) (f : A -> M B) : M B :=
  fun w =>
    let r := m w in
    match outcome r with
    | Ok a =>
        let r' := f a (final r) in
        mkRun (outcome r') (final r') (sent r ++ sent r')%list
    | Raise e => mkRun (Raise e) (final r) (sent r)
    end.

Notation "x <- m ;; k" := (bind m (fun x => k))
  (at level 61, m at next level, right associativity).
Notation "m ;;; k" := (bind m (fun _ => k))
  (at level 61, right associativity).

(** [self.<attribute>] *)
Definition attr {A : Type} (field : PayWhirl -> A) : M A :=
  fun w => mkRun (Ok (field (self w))) w [].

(** The one place where the network is used. *)
Definition perform (req : Request) : M Response :=
  fun w =>
    let (r, n) := transport req (net w) in
    mkRun r (mkWorld (self w) n) [req].

(** [requests.get(url, params=..., headers=..., verify=...)] *)
Definition requests_get (url : string) (params : value)
    (headers : list (string * string)) (verify : bool) : M Response :=
  perform (mkRequest GET url (Some params) None headers verify).

(** [requests.post(url, json=..., headers=..., verify=...)] *)
Definition requests_post (url : string) (json : value)
    (headers : list (string * string)) (verify : bool) : M Response :=
  perform (mkRequest POST url None (Some json) headers verify).

Definition lift {A : Type} (r : result A) : M A :=
  fun w => mkRun r w [].

(** [resp.json()] *)
Definition Response_json (resp : Response) : M value :=
  match json_loads (text resp) with
  | Some v => ret v
  | None => raise (JSONDecodeError (text resp))
  end.

(** [PayWhirl._request] *)
Definition _request (method : string) (path : string) (params : value)
  : M value :=
  let params := py_or params (PyDict []) in
  api_base <- attr _api_base ;;
  let url := api_base ++ path in
  api_key <- attr _api_key ;;
  api_secret <- attr _api_secret ;;
  let headers := [("api_key", api_key); ("api_secret", api_secret)] in
  verify_ssl <- attr _verify_ssl ;;
  resp <- (if String.eqb method "post"
           then requests_post url params headers verify_ssl
           else requests_get url params headers verify_ssl) ;;
  lift (raise_for_status resp) ;;;
  Response_json resp.

(** [PayWhirl._post] and [PayWhirl._get] *)
Definition _post (path : string) (params : value) : M value :=
  _request "post" path params.

Definition _get (path : string) (params : value) : M value :=
  _request "get" path params.

(** The public methods, in the order of the source. *)

Definition get_customers (data : dict) : M value :=
  _get "/customers" (PyDict data).

Definition get_customer (customer_id : Z) : M value :=
  _get (str_format "/customer/{0}" (str_of_int customer_id)) PyNone.

Definition get_addresses (customer_id : Z) : M value :=
  _get (str_format "/customer/addresses/{0}" (str_of_int customer_id)) PyNone.

Definition get_address (address_id : Z) : M value :=
  _get (str_format "/customer/address/{0}" (str_of_int address_id)) PyNone.

Definition get_profile (customer_id : Z) : M value :=
  _get (str_format "/customer/profile/{0}" (str_of_int customer_id)) PyNone.

Definition auth_customer (email password : string) : M value :=
  let data := dict_of [("email", PyStr email); ("password", PyStr password)] in
  _post "/auth/customer" (PyDict data).

Definition create_customer (data : dict) : M value :=
  _post "/create/customer" (PyDict data).

Definition update_customer (data : dict) : M value :=
  _post "/update/customer" (PyDict data).

Definition delete_customer (customer_id : Z) (forget : option Z) : M value :=
  let data := dict_of [("id", PyInt customer_id)] in
  let data :=
    match forget with
    | Some forget => dict_set data "forget" (PyInt forget)
    | None => data
    end in
  _post "/delete/customer" (PyDict data).

Definition get_questions (return_list_size : option Z) : M value :=
  let return_list_size := arg_or 100%Z return_list_size in
  let data := dict_of [("limit", PyInt return_list_size)] in
  _get "/questions" (PyDict data).

Definition update_answer (data : dict) : M value :=
  _post "/update/answer" (PyDict data).

Definition get_answers (customer_id : Z) : M value :=
  let data := dict_of [("customer_id", PyInt customer_id)] in
  _get "/answers" (PyDict data).

Definition get_plans (data : dict) : M value :=
  _get "/plans" (PyDict data).

Definition get_plan (plan_id : Z) : M value :=
  _get (str_format "/plan/{0}" (str_of_int plan_id)) PyNone.

Definition create_plan (data : dict) : M value :=
  _post "/create/plan" (PyDict data).

Definition update_plan (data : dict) : M value :=
  _post "/update/plan" (PyDict data).

Definition get_subscriptions (customer_id : Z) : M value :=
  _get (str_format "/subscriptions/{0}" (str_of_int customer_id)) PyNone.

Definition get_subscription (subscription_id : Z) : M value :=
  _get (str_format "/subscription/{0}" (str_of_int subscription_id)) PyNone.

Definition subscribe_customer (data : dict) : M value :=
  _post "/subscribe/customer" (PyDict data).

(** [if x is not None: data[k] = x] *)
Definition set_if_given (data : dict) (k : string) (x : option Z) : dict :=
  match x with
  | Some x => dict_set data k (PyInt x)
  | None => data
  end.

Definition update_subscription (subscription_id plan_id : Z)
    (quantity address_id installments_left trial_end card_id : option Z)
  : M value :=
  let data := dict_of [("subscription_id", PyInt subscription_id);
                       ("plan_id", PyInt plan_id)] in
  let data := set_if_given data "quantity" quantity in
  let data := set_if_given data "address_id" address_id in
  let data := set_if_given data "installments_left" installments_left in
  let data := set_if_given data "trial_end" trial_end in
  let data := set_if_given data "card_id" card_id in
  _post "/update/subscription" (PyDict data).

Definition unsubscribe_customer (subscription_id : Z) : M value :=
  let data := dict_of [("subscription_id", PyInt subscription_id)] in
  _post "/unsubscribe/customer" (PyDict data).

Definition get_subscribers (data : dict) : M value :=
  _get "/subscribers" (PyDict data).

Definition get_invoice (invoice_id : Z) : M value :=
  _get (str_format "/invoice/{0}" (str_of_int invoice_id)) PyNone.

Definition get_invoices (customer_id : Z) (all_invoices : option bool)
  : M value :=
  let all_invoices := arg_or false all_invoices in
  let params := dict_of [("all", PyStr (if all_invoices then "1" else ""))] in
  _get (str_format "/invoices/{0}" (str_of_int customer_id)) (PyDict params).

Definition process_invoice (invoice_id : Z) (data : dict) : M value :=
  _post (str_format "/invoice/{0}/process" (str_of_int invoice_id))
        (PyDict data).

Definition mark_invoice_as_paid (invoice_id : Z) : M value :=
  _post (str_format "/invoice/{0}/mark-as-paid" (str_of_int invoice_id))
        PyNone.

Definition add_promo_code_to_invoice (invoice_id : Z) (promo_code : string)
  : M value :=
  let data := dict_of [("promo_code", PyStr promo_code)] in
  _post (str_format "/invoice/{0}/add-promo" (str_of_int invoice_id))
        (PyDict data).

Definition remove_promo_code_from_invoice (invoice_id : Z) : M value :=
  _post (str_format "/invoice/{0}/remove-promo" (str_of_int invoice_id))
        PyNone.

Definition update_invoice_card (invoice_id card_id : Z) : M value :=
  let data := dict_of [("card_id", PyInt card_id)] in
  _post (str_format "/invoice/{0}/card" (str_of_int invoice_id)) (PyDict data).

Definition update_invoice_items (invoice_id : Z) (line_items : dict)
  : M value :=
  _post (str_format "/invoice/{0}/items" (str_of_int invoice_id))
        (PyDict line_items).

Definition create_invoice (data : dict) : M value :=
  _post "/invoices" (PyDict data).

Definition delete_invoice (invoice_id : Z) : M value :=
  let data := dict_of [("id", PyInt invoice_id)] in
  _post "/delete/invoice" (PyDict data).

Definition get_gateways : M value :=
  _get "/gateways" PyNone.

Definition get_gateway (gateway_id : Z) : M value :=
  _get (str_format "/gateway/{0}" (str_of_int gateway_id)) PyNone.

Definition create_charge (data : dict) : M value :=
  _post "/create/charge" (PyDict data).

Definition get_charge (charge_id : Z) : M value :=
  _get (str_format "/charge/{0}" (str_of_int charge_id)) PyNone.

Definition refund_charge (charge_id : Z) (data : dict) : M value :=
  _post (str_format "/refund/charge/{0}" (str_of_int charge_id)) (PyDict data).

Definition get_cards (customer_id : Z) : M value :=
  _get (str_format "/cards/{0}" (str_of_int customer_id)) PyNone.

Definition get_card (card_id : Z) : M value :=
  _get (str_format "/card/{0}" (str_of_int card_id)) PyNone.

Definition create_card (data : dict) : M value :=
  _post "/create/card" (PyDict data).

Definition delete_card (card_id : Z) : M value :=
  let data := dict_of [("id", PyInt card_id)] in
  _post "/delete/card" (PyDict data).

Definition get_promos : M value :=
  _get "/promo" PyNone.

Definition get_promo (promo_id : Z) : M value :=
  _get (str_format "/promo/{0}" (str_of_int promo_id)) PyNone.

Definition create_promo (data : dict) : M value :=
  _post "/create/promo" (PyDict data).

Definition delete_promo (promo_id : Z) : M value :=
  let data := dict_of [("id", PyInt promo_id)] in
  _post "/delete/promo" (PyDict data).

Definition get_email_template (template_id : Z) : M value :=
  _get (str_format "/email/{0}" (str_of_int template_id)) PyNone.

Definition send_email (data : dict) : M value :=
  _post "/send-email" (PyDict data).

Definition get_account : M value :=
  _get "/account" PyNone.

Definition get_stats : M value :=
  _get "/stats" PyNone.

Definition get_shipping_rules : M value :=
  _get "/shipping/" PyNone.

Definition get_shipping_rule (shipping_rule_id : Z) : M value :=
  _get (str_format "/shipping/{0}" (str_of_int shipping_rule_id)) PyNone.

Definition get_tax_rules : M value :=
  _get "/tax" PyNone.

Definition get_tax_rule (rule_id : Z) : M value :=
  _get (str_format "/tax/{0}" (str_of_int rule_id)) PyNone.

Definition get_multi_auth_token (data : dict) : M value :=
  _post "/multiauth" (PyDict data).

(** Running a call: the method of that name on those arguments. *)
Definition invoke (c : Call) : M value :=
  match c with
  | call_get_customers data => get_customers data
  | call_get_customer customer_id => get_customer customer_id
  | call_get_addresses customer_id => get_addresses customer_id
  | call_get_address address_id => get_address address_id
  | call_get_profile customer_id => get_profile customer_id
  | call_auth_customer email password => auth_customer email password
  | call_create_customer data => create_customer data
  | call_update_customer data => update_customer data
  | call_delete_customer customer_id forget => delete_customer customer_id forget
  | call_get_questions return_list_size => get_questions return_list_size
  | call_update_answer data => update_answer data
  | call_get_answers customer_id => get_answers customer_id
  | call_get_plans data => get_plans data
  | call_get_plan plan_id => get_plan plan_id
  | call_create_plan data => create_plan data
  | call_update_plan data => update_plan data
  | call_get_subscriptions customer_id => get_subscriptions customer_id
  | call_get_subscription subscription_id => get_subscription subscription_id
  | call_subscribe_customer data => subscribe_customer data
  | call_update_subscription subscription_id plan_id quantity address_id installments_left trial_end card_id => update_subscription subscription_id plan_id quantity address_id installments_left trial_end card_id
  | call_unsubscribe_customer subscription_id => unsubscribe_customer subscription_id
  | call_get_subscribers data => get_subscribers data
  | call_get_invoice invoice_id => get_invoice invoice_id
  | call_get_invoices customer_id all_invoices => get_invoices customer_id all_invoices
  | call_process_invoice invoice_id data => process_invoice invoice_id data
  | call_mark_invoice_as_paid invoice_id => mark_invoice_as_paid invoice_id
  | call_add_promo_code_to_invoice invoice_id promo_code => add_promo_code_to_invoice invoice_id promo_code
  | call_remove_promo_code_from_invoice invoice_id => remove_promo_code_from_invoice invoice_id
  | call_update_invoice_card invoice_id card_id => update_invoice_card invoice_id card_id
  | call_update_invoice_items invoice_id line_items => update_invoice_items invoice_id line_items
  | call_create_invoice data => create_invoice data
  | call_delete_invoice invoice_id => delete_invoice invoice_id
  | call_get_gateways => get_gateways
  | call_get_gateway gateway_id => get_gateway gateway_id
  | call_create_charge data => create_charge data
  | call_get_charge charge_id => get_charge charge_id
  | call_refund_charge charge_id data => refund_charge charge_id data
  | call_get_cards customer_id => get_cards customer_id
  | call_get_card card_id => get_card card_id
  | call_create_card data => create_card data
  | call_delete_card card_id => delete_card card_id
  | call_get_promos => get_promos
  | call_get_promo promo_id => get_promo promo_id
  | call_create_promo data => create_promo data
  | call_delete_promo promo_id => delete_promo promo_id
  | call_get_email_template template_id => get_email_template template_id
  | call_send_email data => send_email data
  | call_get_account => get_account
  | call_get_stats => get_stats
  | call_get_shipping_rules => get_shipping_rules
  | call_get_shipping_rule shipping_rule_id => get_shipping_rule shipping_rule_id
  | call_get_tax_rules => get_tax_rules
  | call_get_tax_rule rule_id => get_tax_rule rule_id
  | call_get_multi_auth_token data => get_multi_auth_token data
  end.

(** A caller that makes the calls one after the other and catches what
    they raise, as the [try ... except HTTPError] of the module's docstring
    does. *)
Fixpoint session (calls : list Call) : M unit :=
  match calls with
  | [] => ret tt
  | c :: rest =>
      fun w =>
        let r := invoke c w in
        let r' := session rest (final r) in
        mkRun (outcome r') (final r') (sent r ++ sent r')%list
  end.

(** The two halves of [_request], for the proofs: the request it builds
    from the client object, and what it makes of the answer. *)
Definition request_for (client : PayWhirl) (method path : string)
    (params : value) : Request :=
  let params := py_or params (PyDict []) in
  let url := _api_base client ++ path in
  let headers := [("api_key", _api_key client);
                  ("api_secret", _api_secret client)] in
  if String.eqb method "post"
  then mkRequest POST url None (Some params) headers (_verify_ssl client)
  else mkRequest GET url (Some params) None headers (_verify_ssl client).

Definition answer (r : result Response) : result value :=
  match r with
  | Ok resp =>
      match raise_for_status resp with
      | Ok _ =>
          match json_loads (text resp) with
          | Some v => Ok v
          | None => Raise (JSONDecodeError (text resp))
          end
      | Raise e => Raise e
      end
  | Raise e => Raise e
  end.

(** ** Strings: the identifier in a path *)

Lemma append_empty_r (s : string) : s ++ "" = s.
Proof. induction s as [ | c s IH ]; cbn; [ | rewrite IH ]; reflexivity. Qed.






(** [str(n)] starts with a digit or a minus sign. *)
Lemma str_of_int_head (n : Z) :
  exists c s, str_of_int n = String c s /\ int_char c = true.
Proof.
  unfold str_of_int.
  destruct (Z.to_int n) as [ d | d ]; cbn.
  - destruct d; cbn; do 2 eexists; (split; reflexivity).
  - do 2 eexists. split; reflexivity.
Qed.


(** ** Strings: [str] of an int, digit by digit *)

Ltac by_digit k H :=
  assert (k = 0 \/ k = 1 \/ k = 2 \/ k = 3 \/ k = 4 \/ k = 5 \/ k = 6 \/
          k = 7 \/ k = 8 \/ k = 9)%N as D by lia; clear H;
  destruct D as [-> | [-> | [-> | [-> | [-> | [-> | [-> | [-> | [-> | ->]]]]]]]]].

Lemma digit_cons_value (k : N) (rest : Decimal.uint) :
  (k < 10)%N ->
  Unsigned.of_lu (digit_cons k rest) = (k + 10 * Unsigned.of_lu rest)%N.
Proof. intro H. by_digit k H; reflexivity. Qed.

Lemma digit_cons_string (k : N) (rest acc : Decimal.uint) :
  (k < 10)%N ->
  Decimal.revapp (digit_cons k rest) acc = Decimal.revapp rest (digit_cons k acc) /\
  NilEmpty.string_of_uint (digit_cons k acc) =
    String (digit k) (NilEmpty.string_of_uint acc).
Proof. intro H. by_digit k H; split; reflexivity. Qed.

Lemma digit_cons_normal (k : N) (acc : Decimal.uint) :
  (0 < k < 10)%N -> Decimal.unorm (digit_cons k acc) = digit_cons k acc.
Proof. intro H. assert (H' : (k < 10)%N) by lia. by_digit k H'; try reflexivity; lia. Qed.

Lemma little_endian_value (fuel : nat) (n : N) :
  (n < 2 ^ N.of_nat fuel)%N -> Unsigned.of_lu (little_endian fuel n) = n.
Proof.
  revert n. induction fuel as [ | fuel IH ]; intros n H.
  - cbn in H. cbn. lia.
  - cbn [little_endian].
    rewrite digit_cons_value by (apply N.mod_lt; lia).
    rewrite Nat2N.inj_succ, N.pow_succ_r' in H.
    destruct (N.ltb_spec n 10) as [ L | L ].
    + cbn. rewrite N.mod_small by exact L. lia.
    + rewrite IH.
      * pose proof (N.div_mod n 10). lia.
      * apply N.Div0.div_lt_upper_bound. lia.
Qed.

Lemma little_endian_string (fuel : nat) (n : N) (acc : Decimal.uint) :
  NilEmpty.string_of_uint (Decimal.revapp (little_endian fuel n) acc) =
  digits_of fuel n (NilEmpty.string_of_uint acc).
Proof.
  revert n acc. induction fuel as [ | fuel IH ]; intros n acc.
  - reflexivity.
  - cbn [little_endian digits_of].
    assert (K : (n mod 10 < 10)%N) by (apply N.mod_lt; lia).
    destruct (digit_cons_string (n mod 10)
                (if (n <? 10)%N then Decimal.Nil
                 else little_endian fuel (n / 10)) acc K) as [-> _].
    destruct (digit_cons_string (n mod 10) Decimal.Nil acc K) as [_ S].
    destruct (N.ltb_spec n 10).
    + cbn [Decimal.revapp]. exact S.
    + rewrite IH, S. reflexivity.
Qed.

Lemma little_endian_normal (fuel : nat) (n : N) (acc : Decimal.uint) :
  (0 < n < 2 ^ N.of_nat fuel)%N ->
  Decimal.unorm (Decimal.revapp (little_endian fuel n) acc) =
  Decimal.revapp (little_endian fuel n) acc.
Proof.
  revert n acc. induction fuel as [ | fuel IH ]; intros n acc H.
  - cbn in H. lia.
  - cbn [little_endian].
    assert (K : (n mod 10 < 10)%N) by (apply N.mod_lt; lia).
    destruct (digit_cons_string (n mod 10)
                (if (n <? 10)%N then Decimal.Nil
                 else little_endian fuel (n / 10)) acc K) as [-> _].
    rewrite Nat2N.inj_succ, N.pow_succ_r' in H.
    destruct (N.ltb_spec n 10) as [ L | L ].
    + cbn [Decimal.revapp]. apply digit_cons_normal.
      rewrite N.mod_small by exact L. lia.
    + apply IH. split.
      * apply N.div_str_pos. lia.
      * apply N.Div0.div_lt_upper_bound. lia.
Qed.

Lemma size_nat_bound (p : positive) :
  (N.pos p < 2 ^ N.of_nat (Pos.size_nat p))%N.
Proof.
  induction p as [ p IH | p IH | ]; cbn [Pos.size_nat];
    rewrite ?Nat2N.inj_succ, ?N.pow_succ_r'; lia.
Qed.

Lemma to_uint_little_endian (p : positive) (fuel : nat) :
  (N.pos p < 2 ^ N.of_nat fuel)%N ->
  Pos.to_uint p = Decimal.rev (little_endian fuel (N.pos p)).
Proof.
  intro H.
  change (Pos.to_uint p) with (N.to_uint (N.pos p)).
  rewrite <- (little_endian_value fuel (N.pos p) H) at 1.
  rewrite <- Unsigned.of_lu_rev, Unsigned.to_of.
  apply little_endian_normal. lia.
Qed.

Lemma string_of_pos (p : positive) :
  NilZero.string_of_uint (Pos.to_uint p) = digits (N.pos p).
Proof.
  assert (H : (N.pos p < 2 ^ N.of_nat (S (N.size_nat (N.pos p))))%N).
  { pose proof (size_nat_bound p). cbn [N.size_nat].
    rewrite Nat2N.inj_succ, N.pow_succ_r'; lia. }
  unfold digits.
  rewrite <- (little_endian_string _ _ Decimal.Nil : _ = digits_of _ _ "").
  rewrite (to_uint_little_endian p _ H).
  unfold NilZero.string_of_uint, Decimal.rev.
  destruct (Decimal.revapp _ _) eqn:E; try reflexivity.
  exfalso. apply (Unsigned.to_uint_nonnil p).
  rewrite (to_uint_little_endian p _ H). exact E.
Qed.

(** [str] of an int is its decimal numeral. *)
Lemma str_of_int_decimal (n : Z) : str_of_int n = decimal n.
Proof.
  unfold str_of_int, decimal.
  destruct n as [ | p | p ]; cbn [Z.to_int Z.ltb Z.compare Z.abs_N NilZero.string_of_int].
  - reflexivity.
  - apply string_of_pos.
  - rewrite string_of_pos. reflexivity.
Qed.

(** ** The dispatcher, step by step *)

Lemma request_run (method path : string) (params : value) (w : World) :
  _request method path params w =
  let req := request_for (self w) method path params in
  mkRun (answer (fst (transport req (net w))))
        (mkWorld (self w) (snd (transport req (net w))))
        [req].
Proof.
  unfold _request, request_for, bind, attr, requests_post, requests_get,
    perform, lift; cbn.
  destruct (String.eqb method "post"); cbn;
    match goal with
    | |- context [transport ?r ?n] => destruct (transport r n) as [[resp | e] n']
    end; cbn; try reflexivity;
    unfold raise_for_status, Response_json;
    destruct (is_http_failure (status_code resp)); cbn; try reflexivity;
    destruct (json_loads (text resp)); reflexivity.
Qed.

Lemma request_sent (method path : string) (params : value) (w : World) :
  sent (_request method path params w) =
  [request_for (self w) method path params].
Proof. rewrite request_run. reflexivity. Qed.

Lemma request_self (method path : string) (params : value) (w : World) :
  self (final (_request method path params w)) = self w.
Proof. rewrite request_run. reflexivity. Qed.

Lemma request_outcome (method path : string) (params : value) (w : World) :
  outcome (_request method path params w) =
  answer (fst (transport (request_for (self w) method path params) (net w))).
Proof. rewrite request_run. reflexivity. Qed.

(** Every public method is one call of the dispatcher. *)
Lemma invoke_dispatch (c : Call) :
  exists method path params,
    (method = "get" \/ method = "post") /\
    forall w, invoke c w = _request method path params w.
Proof.
  destruct c; cbv [invoke]; do 3 eexists; (split; [ | intro w; reflexivity ]);
    auto.
Qed.

(** ** The request the dispatcher issues *)

(** C1: given a verb, a path and a parameter mapping, the dispatcher issues
    one request whose URL is the stored base followed by the path, whose
    headers are exactly [api_key] and [api_secret] with the stored values
    (those given to the constructor), which carries that very mapping as
    query parameters for a GET and as JSON body for a POST, and whose
    certificate check is the stored flag; and [get_customer(42)] issues GET
    base/customer/42 with those headers and returns the decoded JSON of a
    200 response. *)
Theorem dispatcher_request :
  (forall path (mapping : dict) w,
     sent (_request "get" path (PyDict mapping) w) =
       [mkRequest GET (_api_base (self w) ++ path)
          (Some (PyDict mapping)) None
          [("api_key", _api_key (self w));
           ("api_secret", _api_secret (self w))]
          (_verify_ssl (self w))] /\
     sent (_request "post" path (PyDict mapping) w) =
       [mkRequest POST (_api_base (self w) ++ path)
          None (Some (PyDict mapping))
          [("api_key", _api_key (self w));
           ("api_secret", _api_secret (self w))]
          (_verify_ssl (self w))]) /\
  (forall key secret (base : string),
     _api_key (__init__ key secret (Some base)) = key /\
     _api_secret (__init__ key secret (Some base)) = secret /\
     _api_base (__init__ key secret (Some base)) = base) /\
  (forall key secret (base : string) n,
     let req := mkRequest GET (base ++ "/customer/42")
                  (Some (PyDict [])) None
                  [("api_key", key); ("api_secret", secret)] true in
     let w := mkWorld (__init__ key secret (Some base)) n in
     sent (get_customer 42 w) = [req] /\
     forall resp n' v,
       transport req n = (Ok resp, n') ->
       status_code resp = 200%Z ->
       json_loads (text resp) = Some v ->
       outcome (get_customer 42 w) = Ok v).
Proof.
  split; [ | split ].
  - intros path mapping w.
    split; rewrite request_sent; destruct mapping; reflexivity.
  - intros key secret base. repeat split.
  - intros key secret base n req w.
    unfold get_customer, _get.
    assert (E : request_for (self w) "get"
                  (str_format "/customer/{0}" (str_of_int 42)) PyNone = req)
      by reflexivity.
    split.
    + rewrite request_sent, E. reflexivity.
    + intros resp n' v Hnet Hstatus Hjson.
      rewrite request_outcome, E. change (net w) with n. rewrite Hnet. cbn.
      unfold raise_for_status. rewrite Hstatus. cbn.
      rewrite Hjson. reflexivity.
Qed.

(** ** Success, failure, and one request per call *)

(** C2, amended: every public method issues exactly one request; when the
    response has a 2xx status the method returns its body decoded as JSON if
    the body is JSON, and raises the decoder's error, which holds the body
    text, if it is not; when the response has a 4xx or 5xx status the method
    raises the HTTP error that holds this very response, status code and
    body. *)
Theorem endpoint_outcome (c : Call) (w : World) :
  exists req,
    sent (invoke c w) = [req] /\
    forall resp n',
      transport req (net w) = (Ok resp, n') ->
      ((200 <= status_code resp < 300)%Z ->
       (forall v, json_loads (text resp) = Some v ->
                  outcome (invoke c w) = Ok v) /\
       (json_loads (text resp) = None ->
        outcome (invoke c w) = Raise (JSONDecodeError (text resp)))) /\
      ((400 <= status_code resp < 600)%Z ->
       outcome (invoke c w) = Raise (HTTPError resp)).
Proof.
  destruct (invoke_dispatch c) as (m & p & ps & _ & E).
  exists (request_for (self w) m p ps).
  rewrite E, request_sent. split; [ reflexivity | ].
  intros resp n' Hnet. rewrite request_outcome, Hnet. cbn.
  unfold raise_for_status, is_http_failure.
  split.
  - intros Hs.
    destruct (Z.leb_spec 400 (status_code resp)); [ lia | ].
    cbn. split.
    + intros v Hjson. rewrite Hjson. reflexivity.
    + intros Hjson. rewrite Hjson. reflexivity.
  - intros Hs.
    destruct (Z.leb_spec 400 (status_code resp)); [ | lia ].
    destruct (Z.ltb_spec (status_code resp) 600); [ | lia ].
    reflexivity.
Qed.

(** ** Paths *)

(** In a goal about the requests of a call of a known method: name the
    request the dispatcher built. *)
Ltac head_of m :=
  match m with
  | ?f _ => head_of f
  | _ => m
  end.

Ltac issued_by_dispatcher :=
  cbv [invoke]; eexists; split;
  [ match goal with
    | |- sent (?m _) = _ =>
        let h := head_of m in
        unfold h; unfold _get, _post; rewrite request_sent; reflexivity
    end | ].

(** A template with its field at the end, or in the middle. *)
Ltac fill_template :=
  rewrite <- ?str_of_int_decimal;
  match goal with
  | |- context [str_format _ (str_of_int ?id)] =>
      generalize (str_of_int id); intro; cbn;
      rewrite ?append_empty_r; reflexivity
  end.

(** C6: each of the seventeen calls of the endpoint table uses the verb and
    the path the table gives it, the path following the stored base. *)
Theorem endpoint_table_respected (c : Call) (v : verb) (path : string)
    (w : World) :
  endpoint_table c = Some (v, path) ->
  exists req,
    sent (invoke c w) = [req] /\
    method req = v /\
    url req = _api_base (self w) ++ path.
Proof.
  intro H.
  destruct c; cbn [endpoint_table] in H; try discriminate;
    injection H as <- <-; issued_by_dispatcher;
    (split; [ reflexivity | ]);
    cbn [url request_for String.eqb Ascii.eqb Bool.eqb];
    f_equal; try reflexivity; fill_template.
Qed.


(** ** Parameter mappings *)

(** C7: [delete_customer] issues one POST to base/delete/customer whose JSON
    body has the key [id] with the given identifier, followed by the key
    [forget] with the given value exactly when [forget] is not [None];
    [delete_customer(7, forget=1)] sends [{"id": 7, "forget": 1}]. *)
Theorem delete_customer_request (customer_id : Z) (forget : option Z)
    (w : World) :
  sent (delete_customer customer_id forget w) =
    [mkRequest POST (_api_base (self w) ++ "/delete/customer") None
       (Some (PyDict (("id", PyInt customer_id) ::
                      match forget with
                      | Some f => [("forget", PyInt f)]
                      | None => []
                      end)))
       [("api_key", _api_key (self w)); ("api_secret", _api_secret (self w))]
       (_verify_ssl (self w))] /\
  map wire_keys (sent (delete_customer customer_id forget w)) =
    ["id" :: given "forget" forget] /\
  sent (delete_customer 7 (Some 1%Z) w) =
    [mkRequest POST (_api_base (self w) ++ "/delete/customer") None
       (Some (PyDict [("id", PyInt 7); ("forget", PyInt 1)]))
       [("api_key", _api_key (self w)); ("api_secret", _api_secret (self w))]
       (_verify_ssl (self w))].
Proof.
  unfold delete_customer, _post. rewrite !request_sent.
  destruct forget; repeat split.
Qed.

(** C10: the dispatcher turns a [None] mapping into the empty one, so that
    [None] and [{}] give the same run; a POST then carries the JSON body
    [{}], not an absent one, as [mark_invoice_as_paid] and
    [remove_promo_code_from_invoice] do, and a method given an empty
    mapping. *)
Theorem empty_mapping_normalised (w : World) :
  (forall method path,
     _request method path PyNone w = _request method path (PyDict []) w) /\
  (forall path,
     sent (_post path PyNone w) =
       [mkRequest POST (_api_base (self w) ++ path) None (Some (PyDict []))
          [("api_key", _api_key (self w));
           ("api_secret", _api_secret (self w))]
          (_verify_ssl (self w))] /\
     sent (_post path (PyDict []) w) = sent (_post path PyNone w)) /\
  (forall invoice_id,
     map json (sent (mark_invoice_as_paid invoice_id w)) =
       [Some (PyDict [])] /\
     map json (sent (remove_promo_code_from_invoice invoice_id w)) =
       [Some (PyDict [])]) /\
  map json (sent (create_customer [] w)) = [Some (PyDict [])].
Proof.
  repeat split; intros;
    unfold mark_invoice_as_paid, remove_promo_code_from_invoice,
      create_customer, _post;
    rewrite ?request_sent; reflexivity.
Qed.

(** ** The client object *)

Lemma invoke_self (c : Call) (w : World) :
  self (final (invoke c w)) = self w.
Proof.
  destruct (invoke_dispatch c) as (m & p & ps & _ & E).
  rewrite E. apply request_self.
Qed.

Lemma invoke_sent_same (c : Call) (w w' : World) :
  self w' = self w -> sent (invoke c w') = sent (invoke c w).
Proof.
  intro H. destruct (invoke_dispatch c) as (m & p & ps & _ & E).
  rewrite !E, !request_sent, H. reflexivity.
Qed.

Lemma invoke_verify (c : Call) (w : World) :
  Forall (fun req => verify req = _verify_ssl (self w)) (sent (invoke c w)).
Proof.
  destruct (invoke_dispatch c) as (m & p & ps & _ & E).
  rewrite E, request_sent. constructor; [ | constructor ].
  unfold request_for. destruct (String.eqb m "post"); reflexivity.
Qed.

Lemma session_verify (calls : list Call) (w : World) :
  Forall (fun req => verify req = _verify_ssl (self w))
         (sent (session calls w)).
Proof.
  revert w. induction calls as [ | c calls IH ]; intro w; cbn.
  - constructor.
  - apply Forall_app. split; [ apply invoke_verify | ].
    specialize (IH (final (invoke c w))).
    rewrite invoke_self in IH. exact IH.
Qed.

(** C8: the constructor sets the four fields; a call of any public method
    leaves the client object as it was; and the request of a call is the
    same in any two worlds whose client object is the same. *)
Theorem configuration_unchanged (c : Call) (w : World) :
  (forall key secret base,
     __init__ key secret (Some base) = mkPayWhirl key secret base true /\
     __init__ key secret None =
       mkPayWhirl key secret "https://api.paywhirl.com" true) /\
  self (final (invoke c w)) = self w /\
  (forall w', self w' = self w -> sent (invoke c w') = sent (invoke c w)).
Proof.
  split; [ split; reflexivity | ].
  split; [ apply invoke_self | ].
  intros w' H. apply invoke_sent_same, H.
Qed.

(** C9: on a client made by the constructor, whatever the calls made and in
    whatever order, every request issued has certificate checking on. *)
Theorem verify_always_on (key secret : string) (base : option string)
    (calls : list Call) (n : Net) (req : Request) :
  In req (sent (session calls (mkWorld (__init__ key secret base) n))) ->
  verify req = true.
Proof.
  intro H.
  pose proof (session_verify calls (mkWorld (__init__ key secret base) n)) as F.
  rewrite Forall_forall in F. apply (F req H).
Qed.

(** ** What the mapping holds *)


(** C5, amended: a listing call forwards the options of its caller and adds
    none: with an empty options mapping [get_customers], [get_plans] and
    [get_subscribers] send an empty query, without [limit]; only
    [get_questions], called without a size, sends [limit] = 100. *)
Theorem listing_without_options (w : World) :
  (forall data,
     map params (sent (get_customers data w)) = [Some (PyDict data)] /\
     map params (sent (get_plans data w)) = [Some (PyDict data)] /\
     map params (sent (get_subscribers data w)) = [Some (PyDict data)]) /\
  map (fun req => wire_value req "limit") (sent (get_customers [] w)) =
    [None] /\
  map (fun req => wire_value req "limit") (sent (get_plans [] w)) =
    [None] /\
  map (fun req => wire_value req "limit") (sent (get_subscribers [] w)) =
    [None] /\
  map params (sent (get_questions None w)) =
    [Some (PyDict [("limit", PyInt 100)])].
Proof.
  unfold get_customers, get_plans, get_subscribers, get_questions, _get.
  repeat split; rewrite request_sent; try reflexivity;
    destruct data; reflexivity.
Qed.

(** ** Beyond the specification: the dispatcher's edges *)


(** X2: a method that takes a mapping from its caller sends that mapping as
    it is: same keys, same values, same order. *)
Theorem caller_mapping_forwarded (c : Call) (data : dict) (w : World) :
  forwarded c = Some data ->
  exists req,
    sent (invoke c w) = [req] /\ mapping_of req = Some (PyDict data).
Proof.
  intro H.
  destruct c; cbn [forwarded] in H; try discriminate;
    injection H as <-; issued_by_dispatcher;
    match goal with d : dict |- _ => destruct d; reflexivity end.
Qed.

(** X3: when [requests] raises instead of answering, the method raises the
    same exception; one request was issued, the client object is as before
    and the network is in the state the failed call left. *)
Theorem transport_failure_propagates (c : Call) (w : World) :
  exists req,
    sent (invoke c w) = [req] /\
    forall e n',
      transport req (net w) = (Raise e, n') ->
      outcome (invoke c w) = Raise e /\
      final (invoke c w) = mkWorld (self w) n'.
Proof.
  destruct (invoke_dispatch c) as (m & p & ps & _ & E).
  exists (request_for (self w) m p ps).
  rewrite E, request_run. split; [ reflexivity | ].
  intros e n' H. cbn. rewrite H. split; reflexivity.
Qed.

(** ** Beyond the specification: a run of calls *)

Lemma invoke_one_request (c : Call) (w : World) :
  length (sent (invoke c w)) = 1.
Proof.
  destruct (invoke_dispatch c) as (m & p & ps & _ & E).
  rewrite E, request_sent. reflexivity.
Qed.

Lemma session_self (calls : list Call) (w : World) :
  self (final (session calls w)) = self w.
Proof.
  revert w. induction calls as [ | c calls IH ]; intro w; cbn.
  - reflexivity.
  - rewrite IH. apply invoke_self.
Qed.

(** X5: a run of calls issues as many requests as it has calls, whatever the
    network answers (a call that fails is not tried again, and none is
    skipped), and leaves the client object unchanged. *)
Theorem session_one_request_per_call (calls : list Call) (w : World) :
  length (sent (session calls w)) = length calls /\
  self (final (session calls w)) = self w.
Proof.
  split; [ | apply session_self ].
  revert w. induction calls as [ | c calls IH ]; intro w; cbn.
  - reflexivity.
  - rewrite length_app, invoke_one_request, IH. reflexivity.
Qed.




(** ** Beyond the specification: mappings and paths *)

Ltac issued_with_mapping :=
  cbv [invoke]; do 2 eexists; split;
  [ match goal with
    | |- sent (?m _) = _ =>
        let h := head_of m in
        unfold h; unfold _get, _post; rewrite request_sent; reflexivity
    end | ].

(** X7: every request of a public method carries a dict under exactly one
    keyword: the query of a GET, with no body, or the JSON body of a POST,
    with no query. *)
Theorem one_keyword_per_verb (c : Call) (w : World) :
  exists req d,
    sent (invoke c w) = [req] /\
    ((method req = GET /\ params req = Some (PyDict d) /\ json req = None) \/
     (method req = POST /\ json req = Some (PyDict d) /\ params req = None)).
Proof.
  destruct c;
    repeat match goal with
           | x : option _ |- _ => destruct x
           | d : dict |- _ => destruct d
           end;
    issued_with_mapping;
    solve [ left; repeat split | right; repeat split ].
Qed.

(** X8: [update_subscription] posts to base/update/subscription a body that
    starts with [subscription_id] and [plan_id] and goes on with [quantity],
    [address_id], [installments_left], [trial_end] and [card_id], in that
    order, each with the value of its argument and only when that argument
    is not [None]. *)
Theorem update_subscription_body (subscription_id plan_id : Z)
    (quantity address_id installments_left trial_end card_id : option Z)
    (w : World) :
  sent (update_subscription subscription_id plan_id quantity address_id
          installments_left trial_end card_id w) =
    [mkRequest POST (_api_base (self w) ++ "/update/subscription") None
       (Some (PyDict
                (("subscription_id", PyInt subscription_id) ::
                 ("plan_id", PyInt plan_id) ::
                 (item_if_given "quantity" quantity ++
                  item_if_given "address_id" address_id ++
                  item_if_given "installments_left" installments_left ++
                  item_if_given "trial_end" trial_end ++
                  item_if_given "card_id" card_id)%list)))
       [("api_key", _api_key (self w)); ("api_secret", _api_secret (self w))]
       (_verify_ssl (self w))].
Proof.
  unfold update_subscription, _post. rewrite request_sent.
  destruct quantity, address_id, installments_left, trial_end, card_id;
    reflexivity.
Qed.

(** X9: what the client builds itself (the mapping of a method that takes
    none from its caller) is a dict with distinct keys and no [None]
    value. *)
Theorem client_built_mapping_clean (c : Call) (w : World) :
  forwarded c = None ->
  exists req d,
    sent (invoke c w) = [req] /\
    mapping_of req = Some (PyDict d) /\
    NoDup (keys d) /\
    Forall (fun kv => snd kv <> PyNone) d.
Proof.
  intro H.
  destruct c; cbn [forwarded] in H; try discriminate;
    repeat match goal with
           | x : option _ |- _ => destruct x
           end;
    issued_with_mapping;
    (split; [ reflexivity | ]);
    (split; [ repeat constructor; cbn; intuition discriminate
            | repeat constructor; discriminate ]).
Qed.

(** X10: the endpoints that the table of the specification does not list:
    each call is in one of the two tables, and a call of the second uses
    the verb and the path written there. *)
Theorem other_endpoints_respected (c : Call) (w : World) :
  (endpoint_table c = None <-> other_endpoints c <> None) /\
  forall v path,
    other_endpoints c = Some (v, path) ->
    exists req,
      sent (invoke c w) = [req] /\
      method req = v /\
      url req = _api_base (self w) ++ path.
Proof.
  split.
  - destruct c; cbn; split; intro H; try discriminate; try reflexivity;
      exfalso; apply H; reflexivity.
  - intros v path H.
    destruct c; cbn [other_endpoints] in H; try discriminate;
      injection H as <- <-; issued_by_dispatcher;
      (split; [ reflexivity | ]);
      cbn [url request_for String.eqb Ascii.eqb Bool.eqb];
      f_equal; try reflexivity; fill_template.
Qed.

(** ** Beyond the specification: a URL names one resource and one identifier *)

Lemma append_cancel_l (s t t' : string) : s ++ t = s ++ t' -> t = t'.
Proof.
  induction s as [ | c s IH ]; cbn; intro H; [ exact H | ].
  injection H as H. apply IH, H.
Qed.

Lemma string_of_uint_int_chars (d : Decimal.uint) :
  all_int_char (NilEmpty.string_of_uint d) = true.
Proof. induction d; cbn [NilEmpty.string_of_uint all_int_char]; auto. Qed.

Lemma str_of_int_int_chars (n : Z) : all_int_char (str_of_int n) = true.
Proof.
  unfold str_of_int.
  destruct (Z.to_int n) as [ d | d ]; cbn [NilZero.string_of_int].
  - destruct d; try reflexivity; apply string_of_uint_int_chars.
  - cbn [all_int_char]. destruct d; try reflexivity;
      apply string_of_uint_int_chars.
Qed.

(** [str] of an int can be read back. *)
Lemma str_of_int_inj (a b : Z) : str_of_int a = str_of_int b -> a = b.
Proof.
  unfold str_of_int. intro H.
  assert (N : forall z, Z.to_int z <> Decimal.Pos Decimal.Nil /\
                        Z.to_int z <> Decimal.Neg Decimal.Nil).
  { intros [ | q | q ]; cbn; split; try discriminate;
      intro E; injection E as E; exact (Unsigned.to_uint_nonnil q E). }
  apply (f_equal NilZero.int_of_string) in H.
  rewrite !NilZero.isi in H by apply N.
  injection H as H. apply DecimalZ.to_int_inj, H.
Qed.

(** Where the letters stop and the digits start is read off the string. *)
Lemma resource_and_digits (r r' s s' : string) :
  no_int_char r = true -> no_int_char r' = true ->
  all_int_char s = true -> all_int_char s' = true ->
  s <> "" -> s' <> "" ->
  r ++ s = r' ++ s' -> r = r' /\ s = s'.
Proof.
  revert r'. induction r as [ | a r IH ]; intros [ | b r' ] Hr Hr' Hs Hs' N N' E;
    cbn in E.
  - split; [ reflexivity | exact E ].
  - destruct s as [ | c s ]; [ contradiction | ].
    injection E as -> _. cbn in Hs, Hr'.
    apply andb_true_iff in Hs as [Hc _].
    apply andb_true_iff in Hr' as [Hb _].
    rewrite Hc in Hb. discriminate.
  - destruct s' as [ | c s' ]; [ contradiction | ].
    injection E as -> _. cbn in Hs', Hr.
    apply andb_true_iff in Hs' as [Hc _].
    apply andb_true_iff in Hr as [Ha _].
    rewrite Hc in Ha. discriminate.
  - injection E as -> E. cbn in Hr, Hr'.
    apply andb_true_iff in Hr as [_ Hr].
    apply andb_true_iff in Hr' as [_ Hr'].
    destruct (IH r' Hr Hr' Hs Hs' N N' E) as [-> ->].
    split; reflexivity.
Qed.

Lemma by_id_url (c : Call) (resource : string) (id : Z) (w : World) :
  by_id c = Some (resource, id) ->
  no_int_char resource = true /\
  map url (sent (invoke c w)) =
    [_api_base (self w) ++ resource ++ str_of_int id].
Proof.
  intro H.
  destruct c; cbn [by_id] in H; try discriminate;
    injection H as <- <-; (split; [ reflexivity | ]);
    cbv [invoke];
    match goal with
    | |- map url (sent (?m _)) = _ =>
        let h := head_of m in
        unfold h; unfold _get; rewrite request_sent
    end;
    cbn [map url request_for String.eqb Ascii.eqb Bool.eqb];
    do 2 f_equal; fill_template.
Qed.

(** X11: two get-by-id calls on one client go to the same URL only when
    they ask for the same resource with the same identifier. *)
Theorem get_by_id_url_names_one (c c' : Call) (resource resource' : string)
    (id id' : Z) (w : World) :
  by_id c = Some (resource, id) ->
  by_id c' = Some (resource', id') ->
  map url (sent (invoke c w)) = map url (sent (invoke c' w)) ->
  resource = resource' /\ id = id'.
Proof.
  intros H H' E.
  destruct (by_id_url c resource id w H) as [R U].
  destruct (by_id_url c' resource' id' w H') as [R' U'].
  rewrite U, U' in E. injection E as E. apply append_cancel_l in E.
  assert (N : forall z, str_of_int z <> "").
  { intro z. destruct (str_of_int_head z) as (a & t & -> & _). discriminate. }
  destruct (resource_and_digits _ _ _ _ R R' (str_of_int_int_chars id)
              (str_of_int_int_chars id') (N id) (N id') E) as [-> S].
  split; [ reflexivity | apply str_of_int_inj, S ].
Qed.

(** X12: nothing is remembered between calls: the same call made twice in
    a row issues two requests, the second equal to the first, whatever the
    first was answered. *)
Theorem repeated_call_same_request (c : Call) (w : World) :
  sent (session [c; c] w) = (sent (invoke c w) ++ sent (invoke c w))%list /\
  length (sent (session [c; c] w)) = 2.
Proof.
  cbn [session]. cbn [sent ret]. rewrite app_nil_r.
  rewrite (invoke_sent_same c w (final (invoke c w)) (invoke_self c w)).
  split; [ reflexivity | ].
  rewrite length_app, invoke_one_request. reflexivity.
Qed.

End Client.

Arguments mkWorld {Net} _ _.
Arguments self {Net} _.
Arguments net {Net} _.
Arguments outcome {Net A} _.
Arguments final {Net A} _.
Arguments sent {Net A} _.

(** ** The theorems at work, and where the specification departs *)

(** [get_customer(42)] against a network that answers 200 with [{}], and
    the dispatcher with a mapping of two keys, as GET and as POST. *)
Lemma dispatcher_request_witness :
  ((constant_net ok_200
      (mkRequest GET "https://h/customer/42" (Some (PyDict [])) None
         [("api_key", "k"); ("api_secret", "s")] true) tt = (Ok ok_200, tt) /\
    status_code ok_200 = 200%Z /\
    tiny_json (text ok_200) = Some (PyDict [])) /\
   outcome (get_customer unit (constant_net ok_200) tiny_json 42
              (mkWorld (__init__ "k" "s" (Some "https://h")) tt))
   = Ok (PyDict [])) /\
  sent (_request unit (constant_net ok_200) tiny_json "get" "/customers"
          (PyDict [("limit", PyInt 5); ("keyword", PyStr "ann")])
          (mkWorld (__init__ "k" "s" (Some "https://h")) tt))
  = [mkRequest GET "https://h/customers"
       (Some (PyDict [("limit", PyInt 5); ("keyword", PyStr "ann")])) None
       [("api_key", "k"); ("api_secret", "s")] true] /\
  sent (_request unit (constant_net ok_200) tiny_json "post" "/create/plan"
          (PyDict [("name", PyStr "gold"); ("price", PyInt 10)])
          (mkWorld (__init__ "k" "s" (Some "https://h")) tt))
  = [mkRequest POST "https://h/create/plan" None
       (Some (PyDict [("name", PyStr "gold"); ("price", PyInt 10)]))
       [("api_key", "k"); ("api_secret", "s")] true].
Proof.
  split; [ split; [ repeat split | ] | split ].
  - exact (proj2 (proj2 (proj2 (dispatcher_request unit (constant_net ok_200)
                                  tiny_json))
                    "k" "s" "https://h" tt)
             ok_200 tt (PyDict []) eq_refl eq_refl eq_refl).
  - exact (proj1 (proj1 (dispatcher_request unit (constant_net ok_200)
                           tiny_json)
                    "/customers"
                    [("limit", PyInt 5); ("keyword", PyStr "ann")]
                    (mkWorld (__init__ "k" "s" (Some "https://h")) tt))).
  - exact (proj2 (proj1 (dispatcher_request unit (constant_net ok_200)
                           tiny_json)
                    "/create/plan"
                    [("name", PyStr "gold"); ("price", PyInt 10)]
                    (mkWorld (__init__ "k" "s" (Some "https://h")) tt))).
Defined.

(** [get_account()] against a network that answers 401, against one that
    answers 200 with [{}], and [delete_card(3)] against one that answers 204
    with an empty body. *)
Lemma endpoint_outcome_witness :
  ((400 <= status_code unauthorized_401 < 600)%Z /\
   outcome (invoke unit (constant_net unauthorized_401) tiny_json
              call_get_account (mkWorld demo_client tt))
   = Raise (HTTPError unauthorized_401)) /\
  ((200 <= status_code ok_200 < 300)%Z /\
   tiny_json (text ok_200) = Some (PyDict []) /\
   outcome (invoke unit (constant_net ok_200) tiny_json
              call_get_account (mkWorld demo_client tt))
   = Ok (PyDict [])) /\
  ((200 <= status_code no_content_204 < 300)%Z /\
   tiny_json (text no_content_204) = None /\
   outcome (invoke unit (constant_net no_content_204) tiny_json
              (call_delete_card 3) (mkWorld demo_client tt))
   = Raise (JSONDecodeError "")).
Proof.
  split; [ | split ].
  - split; [ cbn; lia | ].
    destruct (endpoint_outcome unit (constant_net unauthorized_401) tiny_json
                call_get_account (mkWorld demo_client tt)) as (req & _ & H).
    apply (H unauthorized_401 tt eq_refl). cbn. lia.
  - split; [ cbn; lia | ]. split; [ reflexivity | ].
    destruct (endpoint_outcome unit (constant_net ok_200) tiny_json
                call_get_account (mkWorld demo_client tt)) as (req & _ & H).
    apply (H ok_200 tt eq_refl); [ cbn; lia | reflexivity ].
  - split; [ cbn; lia | ]. split; [ reflexivity | ].
    destruct (endpoint_outcome unit (constant_net no_content_204) tiny_json
                (call_delete_card 3) (mkWorld demo_client tt))
      as (req & _ & H).
    apply (H no_content_204 tt eq_refl); [ cbn; lia | reflexivity ].
Defined.


(** [refund_charge(12, {})] *)
Lemma endpoint_table_respected_witness :
  endpoint_table (call_refund_charge 12 []) =
    Some (POST, "/refund/charge/12") /\
  exists req,
    sent (invoke unit (constant_net ok_200) tiny_json
            (call_refund_charge 12 []) (mkWorld demo_client tt)) = [req] /\
    method req = POST /\
    url req = _api_base (self (mkWorld demo_client tt)) ++ "/refund/charge/12".
Proof.
  split; [ reflexivity | ].
  apply (endpoint_table_respected unit (constant_net ok_200) tiny_json
           (call_refund_charge 12 [])).
  reflexivity.
Defined.

(** [get_stats()] in two states of a network that counts its requests. *)
Lemma configuration_unchanged_witness :
  self (mkWorld (Net := nat) demo_client 1) =
    self (mkWorld (Net := nat) demo_client 0) /\
  sent (invoke nat (fun _ n => (Ok ok_200, S n)) tiny_json call_get_stats
          (mkWorld demo_client 1))
  = sent (invoke nat (fun _ n => (Ok ok_200, S n)) tiny_json call_get_stats
            (mkWorld demo_client 0)).
Proof.
  split; [ reflexivity | ].
  apply (proj2 (proj2 (configuration_unchanged nat
                         (fun _ n => (Ok ok_200, S n)) tiny_json
                         call_get_stats (mkWorld demo_client 0)))).
  reflexivity.
Defined.

(** Two calls in a row, both refused by the network. *)
Lemma verify_always_on_witness :
  In (mkRequest GET "https://api.paywhirl.com/stats" (Some (PyDict [])) None
        [("api_key", "k"); ("api_secret", "s")] true)
     (sent (session unit (constant_net unauthorized_401) tiny_json
              [call_get_account; call_get_stats]
              (mkWorld (__init__ "k" "s" None) tt))) /\
  verify (mkRequest GET "https://api.paywhirl.com/stats" (Some (PyDict []))
            None [("api_key", "k"); ("api_secret", "s")] true) = true.
Proof.
  assert (H : In (mkRequest GET "https://api.paywhirl.com/stats"
                    (Some (PyDict [])) None
                    [("api_key", "k"); ("api_secret", "s")] true)
                 (sent (session unit (constant_net unauthorized_401) tiny_json
                          [call_get_account; call_get_stats]
                          (mkWorld (__init__ "k" "s" None) tt))))
    by (right; left; reflexivity).
  split; [ exact H | ].
  exact (verify_always_on unit (constant_net unauthorized_401) tiny_json
           "k" "s" None [call_get_account; call_get_stats] tt _ H).
Defined.

(** C2 as the specification has it fails: [delete_card(3)] answered with the
    success status 204 and an empty body returns no decoded JSON, it
    raises. *)
Lemma success_without_json_counterexample :
  (200 <= status_code no_content_204 < 300)%Z /\
  ~ (exists v,
       outcome (invoke unit (constant_net no_content_204) tiny_json
                  (call_delete_card 3) (mkWorld demo_client tt)) = Ok v).
Proof.
  split; [ cbn; lia | ].
  intros (v & H). discriminate H.
Qed.


(** C5 as the specification has it fails: the request of [get_customers({})]
    carries no [limit] = 100 and that of [get_subscribers({})] no
    [limit] = 20. *)
Lemma default_limit_counterexample :
  ~ (exists req,
       In req (sent (invoke unit (constant_net ok_200) tiny_json
                       (call_get_customers []) (mkWorld demo_client tt))) /\
       carries "limit" (PyInt 100) req) /\
  ~ (exists req,
       In req (sent (invoke unit (constant_net ok_200) tiny_json
                       (call_get_subscribers []) (mkWorld demo_client tt))) /\
       carries "limit" (PyInt 20) req).
Proof.
  split; intros (req & [ <- | [] ] & H); discriminate H.
Qed.

(** ** The further theorems at work *)


(** [create_customer({'email': 'a@b.c', 'currency': 'USD'})] *)
Lemma caller_mapping_forwarded_witness :
  forwarded (call_create_customer
               [("email", PyStr "a@b.c"); ("currency", PyStr "USD")]) =
    Some [("email", PyStr "a@b.c"); ("currency", PyStr "USD")] /\
  exists req,
    sent (invoke unit (constant_net ok_200) tiny_json
            (call_create_customer
               [("email", PyStr "a@b.c"); ("currency", PyStr "USD")])
            (mkWorld demo_client tt)) = [req] /\
    mapping_of req =
      Some (PyDict [("email", PyStr "a@b.c"); ("currency", PyStr "USD")]).
Proof.
  split; [ reflexivity | ].
  apply (caller_mapping_forwarded unit (constant_net ok_200) tiny_json).
  reflexivity.
Defined.

(** [get_account()] with the network down. *)
Lemma transport_failure_propagates_witness :
  outcome (invoke unit (failing_net (ConnectionError "refused")) tiny_json
             call_get_account (mkWorld demo_client tt))
  = Raise (ConnectionError "refused").
Proof.
  destruct (transport_failure_propagates unit
              (failing_net (ConnectionError "refused")) tiny_json
              call_get_account (mkWorld demo_client tt)) as (req & _ & H).
  exact (proj1 (H (ConnectionError "refused") tt eq_refl)).
Defined.

(** [delete_customer(7, forget=1)] *)
Lemma client_built_mapping_clean_witness :
  forwarded (call_delete_customer 7 (Some 1%Z)) = None /\
  exists req d,
    sent (invoke unit (constant_net ok_200) tiny_json
            (call_delete_customer 7 (Some 1%Z)) (mkWorld demo_client tt))
    = [req] /\
    mapping_of req = Some (PyDict d) /\
    NoDup (keys d) /\
    Forall (fun kv => snd kv <> PyNone) d.
Proof.
  split; [ reflexivity | ].
  apply (client_built_mapping_clean unit (constant_net ok_200) tiny_json).
  reflexivity.
Defined.

(** [get_shipping_rule(4)] *)
Lemma other_endpoints_respected_witness :
  other_endpoints (call_get_shipping_rule 4) = Some (GET, "/shipping/4") /\
  exists req,
    sent (invoke unit (constant_net ok_200) tiny_json
            (call_get_shipping_rule 4) (mkWorld demo_client tt)) = [req] /\
    method req = GET /\
    url req = _api_base (self (mkWorld demo_client tt)) ++ "/shipping/4".
Proof.
  split; [ reflexivity | ].
  apply (proj2 (other_endpoints_respected unit (constant_net ok_200)
                  tiny_json (call_get_shipping_rule 4)
                  (mkWorld demo_client tt))).
  reflexivity.
Defined.

(** [get_invoices(5)] and [get_invoices(5, True)]: one URL, one resource,
    one identifier. *)
Lemma get_by_id_url_names_one_witness :
  (by_id (call_get_invoices 5 None) = Some ("/invoices/", 5%Z) /\
   by_id (call_get_invoices 5 (Some true)) = Some ("/invoices/", 5%Z) /\
   map url (sent (invoke unit (constant_net ok_200) tiny_json
                    (call_get_invoices 5 None) (mkWorld demo_client tt)))
   = map url (sent (invoke unit (constant_net ok_200) tiny_json
                      (call_get_invoices 5 (Some true))
                      (mkWorld demo_client tt)))) /\
  ("/invoices/" = "/invoices/" /\ 5%Z = 5%Z).
Proof.
  split; [ repeat split | ].
  apply (get_by_id_url_names_one unit (constant_net ok_200) tiny_json
           (call_get_invoices 5 None) (call_get_invoices 5 (Some true))
           "/invoices/" "/invoices/" 5 5 (mkWorld demo_client tt));
    reflexivity.
Defined.
